(** * House layout generator: program extractor and footprint partitioner

    A shallow embedding of [main.py]: the keyword/regex extractor
    [parse_program_from_prompt], the procedural partitioner [split_rooms]
    and the request handler [generate_layout].

    Conventions of the embedding.
    - A Python exception is a value of [exn]; code that can raise returns
      [result A], threaded with [x <- e ;; k].
    - A Python [str] is a [string]; its characters are the code points
      U+0000..U+00FF.  [int(s)] is the mathematical value of a run of
      decimal digits, whatever its length.
    - A Python [float] is an instance of the class [Number]: the program
      is written once against that class and read twice, over IEEE 754
      binary64 ([Binary64], what CPython computes) and over exact
      rationals ([Exact], the arithmetic the layout rules are designed
      in). *)

From Stdlib Require Import ZArith QArith Qminmax Bool List String Ascii.
From Stdlib Require Import DecimalString Lia Lqa Floats.
Import ListNotations.

Set Warnings "-inexact-float".

Local Open Scope string_scope.
Local Open Scope Z_scope.

(** ** Exceptions *)

Inductive exn : Type :=
| ZeroDivisionError   (* float division by zero *)
| OverflowError       (* int too large to convert to float *)
| ValueError.         (* invalid literal for int() *)

Inductive result (A : Type) : Type :=
| Ok (a : A)
| Raise (e : exn).

Arguments Ok {A} a.
Arguments Raise {A} e.

Definition bind {A B : Type} (m : result A) (k : A -> result B) : result B :=
  match m with
  | Ok a => k a
  | Raise e => Raise e
  end.

Declare Scope py_scope.
Delimit Scope py_scope with py.
Notation "x <- e ;; k" := (bind e (fun x => k))
  (at level 61, e at next level, right associativity) : py_scope.
Local Open Scope py_scope.

(** ** Python built-ins on strings and integers *)

Module Py.

Definition code (c : ascii) : N := N_of_ascii c.

Definition between (lo hi n : N) : bool := ((lo <=? n) && (n <=? hi))%N.

(** [str.lower] on one character: A..Z, and the upper-case letters of
    U+00C0..U+00DE (all but the multiplication sign U+00D7). *)
Definition lower_char (c : ascii) : ascii :=
  let n := code c in
  if between 65 90 n || (between 192 222 n && negb (n =? 215)%N)
  then ascii_of_N (n + 32)
  else c.

Fixpoint lower (s : string) : string :=
  match s with
  | EmptyString => EmptyString
  | String c t => String (lower_char c) (lower t)
  end.

(** The class [\d] of [re] on [str] patterns. *)
Definition is_digit (c : ascii) : bool := between 48 57 (code c).

(** The class [\s] of [re] on [str] patterns ([str.isspace]). *)
Definition is_space (c : ascii) : bool :=
  let n := code c in
  between 9 13 n || between 28 32 n || (n =? 133)%N || (n =? 160)%N.

(** [k in text] on strings. *)
Fixpoint contains (k text : string) : bool :=
  if String.prefix k text then true
  else match text with
       | EmptyString => false
       | String _ t => contains k t
       end.

(** [any(k in text for k in ks)]. *)
Definition any_in (ks : list string) (text : string) : bool :=
  existsb (fun k => contains k text) ks.

Definition digit_value (c : ascii) : Z := Z.of_N (code c) - 48.

Fixpoint int_digits (acc : Z) (s : string) : result Z :=
  match s with
  | EmptyString => Ok acc
  | String c t =>
      if is_digit c then int_digits (10 * acc + digit_value c) t
      else Raise ValueError
  end.

(** [int(s)] for [s] a run of decimal digits; any other text is refused
    here (Python accepts a sign, blanks and underscores as well; the
    program never passes such text). *)
Definition int (s : string) : result Z :=
  match s with
  | EmptyString => Raise ValueError
  | _ => int_digits 0 s
  end.

(** [str(n)], the decimal text an f-string inserts for an integer. *)
Definition str (n : Z) : string := NilZero.string_of_int (Z.to_int n).

End Py.

(** ** The pattern [(\d+)\s*keyword]

    [re.search] tries each start position from the left; at one position
    [\d+] and [\s*] are greedy and give characters back on failure.  The
    candidate lists below are in the order the backtracking matcher tries
    them (longest first). *)

Module Re.

(** Every way for [\d+] to match a prefix of [s]: the group's text and
    the rest of the input. *)
Fixpoint digits_plus (s : string) : list (string * string) :=
  match s with
  | EmptyString => []
  | String c t =>
      if Py.is_digit c
      then map (fun dr => (String c (fst dr), snd dr)) (digits_plus t)
             ++ [(String c EmptyString, t)]
      else []
  end.

(** Every way for [\s*] to match a prefix of [s]: the rest of the input. *)
Fixpoint spaces_star (s : string) : list string :=
  match s with
  | EmptyString => [EmptyString]
  | String c t =>
      if Py.is_space c then spaces_star t ++ [s] else [s]
  end.

(** A match anchored at the head of [s]; the result is [group(1)]. *)
Definition match_here (keyword s : string) : option string :=
  option_map fst
    (find (fun dr => existsb (String.prefix keyword) (spaces_star (snd dr)))
          (digits_plus s)).

(** [re.search(rf"(\d+)\s*{keyword}", text)], reduced to [group(1)]. *)
Fixpoint search (keyword text : string) : option string :=
  match match_here keyword text with
  | Some g => Some g
  | None =>
      match text with
      | EmptyString => None
      | String _ t => search keyword t
      end
  end.

End Re.

(** ** The program extractor *)

Record HousingProgram : Type := mkProgram {
  bedrooms : Z;
  bathrooms : Z;
  office : Z;
  open_plan : bool;
  style : string
}.

(** The closure [find_num] of [parse_program_from_prompt], with the
    captured [text] as its first argument. *)
Definition find_num (text keyword : string) (default : Z) : result Z :=
  match Re.search keyword text with
  | Some g => Py.int g
  | None => Ok default
  end.

Definition parse_program_from_prompt (prompt : string) : result HousingProgram :=
  let text := Py.lower prompt in
  n_bed <- find_num text "bed" 3 ;;
  let bedrooms := Z.max 1 (Z.min 6 n_bed) in
  n_bath <- find_num text "bath" 2 ;;
  let bathrooms := Z.max 1 (Z.min 4 n_bath) in
  let office := if Py.any_in ["office"; "study"; "workspace"] text then 1 else 0 in
  let open_plan :=
    Py.any_in ["open plan"; "open-plan"; "open concept"; "open layout"] text in
  let style :=
    if Py.any_in ["modern"; "contemporary"; "minimal"] text then "modern"
    else if Py.any_in ["traditional"; "classic"] text then "traditional"
    else "neutral" in
  Ok {| bedrooms := bedrooms;
        bathrooms := bathrooms;
        office := office;
        open_plan := open_plan;
        style := style |}.

(** ** Numbers

    What the partitioner needs from Python's [float]: decimal literals,
    the four operations, comparison, the test [== 0] behind
    [ZeroDivisionError], and the conversion of an [int] operand, which
    overflows for large integers ([of_int] is then [None]). *)

Class Number (F : Type) : Type := {
  lit : Z -> positive -> F;     (* the literal n/d, d a power of ten *)
  fadd : F -> F -> F;
  fsub : F -> F -> F;
  fmul : F -> F -> F;
  fdiv : F -> F -> F;           (* the quotient, for a divisor that is not zero *)
  flt : F -> F -> bool;
  fle : F -> F -> bool;
  is_zero : F -> bool;
  of_int : Z -> option F
}.

Declare Scope num_scope.
Delimit Scope num_scope with num.
Infix "+" := fadd : num_scope.
Infix "-" := fsub : num_scope.
Infix "*" := fmul : num_scope.
Infix "<?" := flt : num_scope.
Infix "<=?" := fle : num_scope.

(** IEEE 754 binary64, round to nearest even: CPython's [float]. *)
Module Binary64.

(** The float nearest to an integer. *)
Definition of_Z (n : Z) : float := SF2Prim (binary_normalize prec emax n 0 false).

(** [float(n)] raises [OverflowError] exactly when [n] rounds to a
    magnitude of 2^1024 or more. *)
Definition int_fits (n : Z) : bool := (Z.abs n <? 2 ^ 1024 - 2 ^ 970)%Z.

#[global] Instance number : Number float := {
  lit n d := PrimFloat.div (of_Z n) (of_Z (Z.pos d));
  fadd := PrimFloat.add;
  fsub := PrimFloat.sub;
  fmul := PrimFloat.mul;
  fdiv := PrimFloat.div;
  flt := PrimFloat.ltb;
  fle := PrimFloat.leb;
  is_zero a := PrimFloat.eqb a PrimFloat.zero;
  of_int n := if int_fits n then Some (of_Z n) else None
}.

End Binary64.

(** Exact rational arithmetic. *)
Module Exact.

#[global] Instance number : Number Q := {
  lit n d := Qmake n d;
  fadd := Qplus;
  fsub := Qminus;
  fmul := Qmult;
  fdiv := Qdiv;
  flt a b := negb (Qle_bool b a);
  fle := Qle_bool;
  is_zero a := Qeq_bool a 0;
  of_int n := Some (inject_Z n)
}.

End Exact.

(** ** Rooms, requests and responses *)

Module Room.
Record t (F : Type) : Type := mk {
  name : string;
  x : F;
  y : F;
  z : F;
  width : F;
  depth : F;
  height : F
}.
Arguments mk {F}.
Arguments name {F}.
Arguments x {F}.
Arguments y {F}.
Arguments z {F}.
Arguments width {F}.
Arguments depth {F}.
Arguments height {F}.
End Room.

Module PromptRequest.
Record t (F : Type) : Type := mk {
  prompt : string;
  width : F;
  depth : F;
  floors : Z
}.
Arguments mk {F}.
Arguments prompt {F}.
Arguments width {F}.
Arguments depth {F}.
Arguments floors {F}.
End PromptRequest.

Module GenerationResponse.
Record footprint_t (F : Type) : Type := mk_footprint {
  fp_width : F;
  fp_depth : F;
  fp_height : F
}.
Record meta_t : Type := mk_meta {
  program : HousingProgram;
  note : string
}.
Record t (F : Type) : Type := mk {
  footprint : footprint_t F;
  rooms : list (Room.t F);
  meta : meta_t
}.
Arguments mk_footprint {F}.
Arguments fp_width {F}.
Arguments fp_depth {F}.
Arguments fp_height {F}.
Arguments mk {F}.
Arguments footprint {F}.
Arguments rooms {F}.
Arguments meta {F}.
End GenerationResponse.

(** [HTTPException(status_code=500, detail=str(e))]; the detail is kept
    as the exception it prints. *)
Inductive HTTPException : Type :=
| HTTP500 (detail : exn).

(** ** The footprint partitioner *)

Section Partitioner.

Context {F : Type} `{Number F}.
Local Open Scope num_scope.

(** An [int] operand of float arithmetic is converted first. *)
Definition float_of_int (n : Z) : result F :=
  match of_int n with
  | Some a => Ok a
  | None => Raise OverflowError
  end.

(** [n * a] for an [int] [n] and a float [a]. *)
Definition int_mul (n : Z) (a : F) : result F :=
  f <- float_of_int n ;; Ok (f * a).

(** [a / n] for a float [a] and an [int] [n]. *)
Definition div_int (a : F) (n : Z) : result F :=
  f <- float_of_int n ;;
  if is_zero f then Raise ZeroDivisionError else Ok (fdiv a f).

(** [min(a, b)]: the first argument unless the second is smaller. *)
Definition fmin (a b : F) : F := if b <? a then b else a.

Definition wall : F := lit 1 10.
Definition height : F := lit 3 1.

(** The small integer literals 0, 2 and 3 of the source, as floats. *)
Definition zero : F := lit 0 1.
Definition two : F := lit 2 1.
Definition three : F := lit 3 1.

(** The inner loop [for c in range(cols)] of the bedroom grid, with
    [n] iterations left; its state is the room list, [x0] and
    [placed_beds]. *)
Fixpoint bedroom_row (program : HousingProgram) (cell_w cell_d y0 : F) (n : nat)
    (rooms : list (Room.t F)) (x0 : F) (placed_beds : Z)
    : list (Room.t F) * Z :=
  match n with
  | O => (rooms, placed_beds)
  | S n' =>
      if (bedrooms program <=? placed_beds)%Z then (rooms, placed_beds)   (* break *)
      else
        let room := Room.mk ("Bedroom " ++ Py.str (placed_beds + 1)%Z)
                      x0 y0 zero cell_w cell_d height in
        bedroom_row program cell_w cell_d y0 n'
          (rooms ++ [room]) (x0 + (cell_w + wall)) (placed_beds + 1)%Z
  end.

(** The outer loop [for r in range(rows)], with [n] iterations left;
    its state is the room list, [placed_beds] and [y0]. *)
Fixpoint bedroom_rows (program : HousingProgram) (cell_w cell_d : F) (cols : Z)
    (n : nat) (rooms : list (Room.t F)) (placed_beds : Z) (y0 : F)
    : list (Room.t F) :=
  match n with
  | O => rooms
  | S n' =>
      let x0 := wall in
      let '(rooms, placed_beds) :=
        bedroom_row program cell_w cell_d y0 (Z.to_nat cols) rooms x0 placed_beds in
      bedroom_rows program cell_w cell_d cols n' rooms placed_beds
        (y0 + (cell_d + wall))
  end.

(** The loop [for i in range(program["bathrooms"])], at index [i] with
    [n] iterations left. *)
Fixpoint bathroom_loop (width front_depth cell_w cell_d : F) (n : nat) (i : Z)
    (rooms : list (Room.t F)) : result (list (Room.t F)) :=
  match n with
  | O => Ok rooms
  | S n' =>
      let b_w := fmin (lit 22 10) (cell_w * lit 6 10) in
      let b_d := fmin (lit 24 10) (wall + cell_d * lit 6 10) in
      let bx := width - b_w - wall in
      off <- int_mul i (b_d + wall) ;;
      let by_ := front_depth + wall + off in
      let room := Room.mk ("Bath " ++ Py.str (i + 1)%Z) bx by_ zero b_w b_d height in
      bathroom_loop width front_depth cell_w cell_d n' (i + 1)%Z (rooms ++ [room])
  end.

Definition split_rooms (width depth : F) (program : HousingProgram)
    : result (list (Room.t F)) :=
  let rooms : list (Room.t F) := [] in
  (* Reserve front strip for living/kitchen *)
  let front_depth :=
    depth * (if open_plan program then lit 45 100 else lit 35 100) in
  (* Living area *)
  let living := Room.mk "Living" wall wall zero
                  (width - two * wall) (front_depth - wall * two) height in
  let rooms := (rooms ++ [living])%list in
  (* Kitchen + dining *)
  let rooms :=
    if open_plan program then
      let k_w := (width - three * wall) * lit 4 10 in
      let kitchen := Room.mk "Kitchen" wall wall zero
                       k_w (front_depth - two * wall) height in
      let dining := Room.mk "Dining" (wall + k_w + wall) wall zero
                      (width - (k_w + three * wall)) (front_depth - two * wall) height in
      (rooms ++ [kitchen; dining])%list
    else
      let k_depth := front_depth * lit 55 100 in
      let kitchen := Room.mk "Kitchen" wall wall zero
                       ((width - three * wall) * lit 5 10) (k_depth - wall) height in
      let dining := Room.mk "Dining" (wall + Room.width kitchen + wall) wall zero
                      (width - (Room.width kitchen + three * wall)) (k_depth - wall) height in
      (rooms ++ [kitchen; dining])%list in
  (* Back zone for private rooms *)
  let remaining_depth := depth - front_depth - wall in
  let rows := Z.max 1 (bedrooms program / 2)%Z in
  let cols := (if 2 <=? bedrooms program then 2 else 1)%Z in
  walls_w <- int_mul (cols + 1)%Z wall ;;
  cell_w <- div_int (width - walls_w) cols ;;
  cell_d <- (if (0 <? rows)%Z
             then walls_d <- int_mul (rows + 1)%Z wall ;;
                  div_int (remaining_depth - walls_d) rows
             else Ok remaining_depth) ;;
  let placed_beds := 0%Z in
  let y0 := front_depth + wall in
  let rooms :=
    bedroom_rows program cell_w cell_d cols (Z.to_nat rows) rooms placed_beds y0 in
  (* Bathrooms: small rooms near back-right *)
  rooms <- bathroom_loop width front_depth cell_w cell_d
             (Z.to_nat (bathrooms program)) 0%Z rooms ;;
  (* Optional office near entrance *)
  let rooms :=
    if (office program =? 0)%Z then rooms
    else
      let o_w := fmin (lit 3 1) ((width - three * wall) * lit 35 100) in
      let o_d := fmin (lit 3 1) ((front_depth - three * wall) * lit 7 10) in
      (rooms ++ [Room.mk "Office" (width - o_w - wall) wall zero o_w o_d height])%list in
  Ok rooms.

Definition generate_layout (req : PromptRequest.t F)
    : HTTPException + GenerationResponse.t F :=
  let body :=
    program <- parse_program_from_prompt (PromptRequest.prompt req) ;;
    rooms <- split_rooms (PromptRequest.width req) (PromptRequest.depth req) program ;;
    let footprint :=
      GenerationResponse.mk_footprint
        (PromptRequest.width req) (PromptRequest.depth req) (lit 3 1) in
    let meta :=
      GenerationResponse.mk_meta program
        "Procedurally generated layout (conceptual). Units in meters." in
    Ok (GenerationResponse.mk footprint rooms meta) in
  match body with
  | Ok response => inr response
  | Raise e => inl (HTTP500 e)
  end.

End Partitioner.

(** ** Vocabulary of the statements *)


(** A [HousingProgram] as the extractor produces it. *)
Definition valid_program (p : HousingProgram) : Prop :=
  (1 <= bedrooms p <= 6) /\ (1 <= bathrooms p <= 4).



(** The names of the rooms returned, in order. *)
Definition names_of {F : Type} (r : result (list (Room.t F))) : result (list string) :=
  rooms <- r ;; Ok (map Room.name rooms).

Definition count_named {F : Type} (n : string) (rooms : list (Room.t F)) : nat :=
  List.length (filter (fun r => String.eqb (Room.name r) n) rooms).

Definition count_prefixed {F : Type} (pre : string) (rooms : list (Room.t F)) : nat :=
  List.length (filter (fun r => String.prefix pre (Room.name r)) rooms).

Section Geometry.

Context {F : Type} `{Number F}.
Local Open Scope num_scope.

(** What the request model enforces: [gt=4, lt=200] on both sides. *)
Definition valid_footprint (width depth : F) : Prop :=
  (lit 4 1 <? width) = true /\ (width <? lit 200 1) = true /\
  (lit 4 1 <? depth) = true /\ (depth <? lit 200 1) = true.

(** The room lies inside the footprint [width] x [depth]. *)
Definition inside_footprint (width depth : F) (r : Room.t F) : bool :=
  (zero <=? Room.x r) && (zero <=? Room.y r)
  && (Room.x r + Room.width r <=? width)
  && (Room.y r + Room.depth r <=? depth).




Definition positive_size (r : Room.t F) : bool :=
  (zero <? Room.width r) && (zero <? Room.depth r).


Definition on_ground (r : Room.t F) : Prop := Room.z r = zero.


End Geometry.





(** The same notions over exact rationals, as propositions. *)
Module ExactGeometry.

Local Open Scope Q_scope.


Definition positive (r : Room.t Q) : Prop :=
  0 < Room.width r /\ 0 < Room.depth r.


End ExactGeometry.




(** ** Vocabulary of the further statements *)

Section FrontZone.

Context {F : Type} `{Number F}.
Local Open Scope num_scope.







End FrontZone.

Module ExactBounds.

Local Open Scope Q_scope.





End ExactBounds.


(** ** Vocabulary of the properties beyond the spec *)

Fixpoint no_digit (s : string) : bool :=
  match s with
  | EmptyString => true
  | String c t => negb (Py.is_digit c) && no_digit t
  end.


Definition starts_without_digit (s : string) : bool :=
  match s with
  | EmptyString => true
  | String c _ => negb (Py.is_digit c)
  end.

(** The cells of the bedroom grid: [rows * cols]. *)
Definition grid_cells (b : Z) : Z :=
  Z.max 1 (b / 2) * (if 2 <=? b then 2 else 1).

(** [label 1], ..., [label n]. *)
Definition numbered (label : string) (n : Z) : list string :=
  map (fun i => label ++ Py.str (Z.of_nat i)) (seq 1 (Z.to_nat n)).

(** The names the partitioner gives, in order: a bedroom per grid cell,
    up to the number requested. *)
Definition room_names (p : HousingProgram) : list string :=
  (["Living"; "Kitchen"; "Dining"]
   ++ numbered "Bedroom " (Z.min (bedrooms p) (grid_cells (bedrooms p)))
   ++ numbered "Bath " (bathrooms p)
   ++ (if office p =? 0 then [] else ["Office"]))%list.

Fixpoint distinct (l : list string) : bool :=
  match l with
  | [] => true
  | a :: t => negb (existsb (String.eqb a) t) && distinct t
  end.

Section Heights.

Context {F : Type} `{Number F}.


End Heights.

Module ExactBaths.

Local Open Scope Q_scope.


End ExactBaths.

(** * Properties of the extractor *)

Section ExtractorFacts.







End ExtractorFacts.

Example search_backtracks :
  Re.search "bed" "12 3 bed, 4 bed" = Some "3".
Proof. reflexivity. Qed.

Example parse_upper_case :
  parse_program_from_prompt "FOUR BATH? NO: 4BED, CLASSIC STUDY"
  = Ok (mkProgram 4 2 1 false "traditional").
Proof. reflexivity. Qed.


(** C6. On the empty prompt the extractor returns the defaults: 3
    bedrooms, 2 bathrooms, no office (the flag 0, Python's [False]), not
    open plan, style "neutral". *)
Theorem extractor_defaults :
  parse_program_from_prompt ""
  = Ok {| bedrooms := 3;
          bathrooms := 2;
          office := Z.b2z false;
          open_plan := false;
          style := "neutral" |}.
Proof. reflexivity. Qed.

(** * Properties of the partitioner *)

(** ** Runs on concrete inputs, in binary64 *)

Example literals_are_python_literals :
  (lit 1 10 = 0.1 /\ lit 45 100 = 0.45 /\ lit 35 100 = 0.35 /\ lit 4 10 = 0.4
   /\ lit 55 100 = 0.55 /\ lit 5 10 = 0.5 /\ lit 22 10 = 2.2 /\ lit 6 10 = 0.6
   /\ lit 24 10 = 2.4 /\ lit 7 10 = 0.7 /\ lit 3 1 = 3 /\ lit 2 1 = 2
   /\ lit 0 1 = 0)%float.
Proof. vm_compute. repeat split. Qed.

(** C2. The claimed order Living, Kitchen, Dining, Bedroom 1..bedrooms,
    Bath 1..bathrooms, [Office] fails for 3 bedrooms: the grid has
    [max(1, 3 // 2) = 1] row of 2 columns, so for every footprint the
    program {bedrooms:3, bathrooms:1, office:1} yields 7 names, without
    "Bedroom 3", where the claim counts 3 + 3 + 1 + 1 = 8. *)
Theorem third_bedroom_is_not_placed :
  forall (width depth : float) (open : bool) (tag : string),
    names_of (split_rooms width depth (mkProgram 3 1 1 open tag))
    = Ok ["Living"; "Kitchen"; "Dining"; "Bedroom 1"; "Bedroom 2"; "Bath 1"; "Office"].
Proof. intros width depth [|] tag; vm_compute; reflexivity. Qed.

(** C4. End to end, on the prompt of the scenario with width 14 and
    depth 9: the extractor returns {bedrooms:2, bathrooms:1, office:1,
    open_plan:true, style:"modern"} and the partitioner returns 7 rooms:
    one "Living", one "Kitchen", one "Dining", two "Bedroom N", one
    "Bath 1" and one "Office". *)
Theorem end_to_end_scenario :
  let prompt := "A modern 2 bedroom, 1 bathroom house with an open-plan kitchen and a home office" in
  let program := mkProgram 2 1 1 true "modern" in
  parse_program_from_prompt prompt = Ok program
  /\ exists rooms : list (Room.t float),
       split_rooms 14%float 9%float program = Ok rooms
       /\ map Room.name rooms
          = ["Living"; "Kitchen"; "Dining"; "Bedroom 1"; "Bedroom 2"; "Bath 1"; "Office"]
       /\ List.length rooms = 7%nat
       /\ count_named "Kitchen" rooms = 1%nat
       /\ count_named "Dining" rooms = 1%nat
       /\ count_prefixed "Bedroom " rooms = 2%nat
       /\ count_named "Bath 1" rooms = 1%nat
       /\ count_named "Office" rooms = 1%nat
       /\ count_named "Living" rooms = 1%nat.
Proof.
  cbv zeta. split; [vm_compute; reflexivity|].
  eexists. split; [vm_compute; reflexivity|].
  repeat split.
Qed.

(** C7. For width 12 and depth 10 with 3 bedrooms, 2 bathrooms and no
    open plan (office set or not), every room returned has x >= 0,
    y >= 0, x + width <= 12 and y + depth <= 10, in Python's float
    arithmetic and in exact arithmetic alike. *)
Theorem typical_rooms_inside_footprint :
  forall (office : Z) (tag : string),
    let program := mkProgram 3 2 office false tag in
    (exists rooms : list (Room.t float),
        split_rooms 12%float 10%float program = Ok rooms
        /\ forallb (inside_footprint 12%float 10%float) rooms = true)
    /\ (exists rooms : list (Room.t Q),
        split_rooms 12%Q 10%Q program = Ok rooms
        /\ forallb (inside_footprint 12%Q 10%Q) rooms = true).
Proof.
  intros office tag program. subst program.
  destruct office as [|n|n]; split; eexists;
    (split; [vm_compute; reflexivity | vm_compute; reflexivity]).
Qed.

(** ** No exception on valid programs *)

Section Totality.

Context {F : Type} `{Number F}.

(** What the proof needs of the arithmetic: the integers the grid uses
    convert to floats, and to zero only from zero. *)
Hypothesis small_ints :
  forall n, 0 <= n <= 7 ->
    exists a, of_int n = Some a /\ (n <> 0 -> is_zero a = false).

Lemma int_mul_small n a :
  0 <= n <= 7 -> exists v, int_mul n a = Ok v.
Proof.
  intros Hn. destruct (small_ints n Hn) as [f [Hf _]].
  unfold int_mul, float_of_int. rewrite Hf. cbn [bind]. eauto.
Qed.

Lemma div_int_small a n :
  1 <= n <= 7 -> exists v, div_int a n = Ok v.
Proof.
  intros Hn. destruct (small_ints n ltac:(lia)) as [f [Hf Hz]].
  unfold div_int, float_of_int. rewrite Hf. cbn [bind].
  rewrite Hz by lia. eauto.
Qed.

Lemma bathroom_loop_total width front_depth cell_w cell_d :
  forall n i rooms,
    0 <= i -> i + Z.of_nat n <= 7 ->
    exists rooms', bathroom_loop width front_depth cell_w cell_d n i rooms = Ok rooms'.
Proof.
  induction n as [|n IH]; intros i rooms Hi Hn; cbn [bathroom_loop].
  - eauto.
  - destruct (int_mul_small i
                (fadd (fmin (lit 24 10) (fadd wall (fmul cell_d (lit 6 10)))) wall))
      as [off Hoff]; [lia|].
    rewrite Hoff. cbn [bind]. apply IH; lia.
Qed.

Lemma split_rooms_total_small width depth p :
  valid_program p -> exists rooms, split_rooms width depth p = Ok rooms.
Proof.
  intros [Hbed Hbath]. unfold split_rooms.
  set (rows := Z.max 1 (bedrooms p / 2)).
  set (cols := if 2 <=? bedrooms p then 2 else 1).
  assert (Hrows : 1 <= rows <= 3).
  { subst rows. assert (0 <= bedrooms p / 2 <= 3); [|lia].
    split; [apply Z.div_pos; lia|].
    apply Z.div_le_upper_bound; lia. }
  assert (Hcols : 1 <= cols <= 2).
  { subst cols. destruct (2 <=? bedrooms p); lia. }
  destruct (int_mul_small (cols + 1) wall) as [ww Hww]; [lia|].
  rewrite Hww. cbn [bind].
  destruct (div_int_small (fsub width ww) cols) as [cw Hcw]; [lia|].
  rewrite Hcw. cbn [bind].
  replace (0 <? rows) with true by (symmetry; apply Z.ltb_lt; lia).
  destruct (int_mul_small (rows + 1) wall) as [wd Hwd]; [lia|].
  rewrite Hwd. cbn [bind].
  match goal with
  | |- context [div_int ?a rows] =>
      destruct (div_int_small a rows) as [cd Hcd]; [lia|]; rewrite Hcd
  end.
  cbn [bind].
  match goal with
  | |- context [bathroom_loop ?w ?f ?a ?b ?n ?i ?r] =>
      destruct (bathroom_loop_total w f a b n i r) as [rs Hrs]; [lia|lia|];
      rewrite Hrs
  end.
  cbn [bind]. eauto.
Qed.

End Totality.

Lemma binary64_small_ints :
  forall n, 0 <= n <= 7 ->
    exists a, of_int (F := float) n = Some a /\ (n <> 0 -> is_zero a = false).
Proof.
  intros n Hn.
  assert (Hcases : n = 0 \/ n = 1 \/ n = 2 \/ n = 3 \/ n = 4 \/ n = 5 \/ n = 6 \/ n = 7)
    by lia.
  repeat (destruct Hcases as [->|Hcases]); try subst n;
    (eexists; split; [vm_compute; reflexivity|]);
    intros Hnz; try (now vm_compute); congruence.
Qed.

Lemma exact_small_ints :
  forall n, 0 <= n <= 7 ->
    exists a, of_int (F := Q) n = Some a /\ (n <> 0 -> is_zero a = false).
Proof.
  intros n Hn. exists (inject_Z n). split; [reflexivity|].
  intros Hnz. cbn [is_zero Exact.number].
  destruct (Qeq_bool (inject_Z n) 0) eqn:E; [|reflexivity].
  apply Qeq_bool_eq in E. unfold Qeq in E. simpl in E. lia.
Qed.

(** C8. [split_rooms] raises nothing on its domain: for every float
    [width] and [depth] (those with 4 < width, depth < 200 among them)
    and every program with 1..6 bedrooms and 1..4 bathrooms it returns a
    room list; the divisors of the grid cells, [cols] and [rows], are at
    least 1. *)
Theorem split_rooms_total :
  forall (width depth : float) (program : HousingProgram),
    valid_footprint width depth ->
    valid_program program ->
    exists rooms, split_rooms width depth program = Ok rooms.
Proof.
  intros width depth program _ Hp.
  now apply (split_rooms_total_small binary64_small_ints).
Qed.

Lemma split_rooms_total_witness :
  valid_footprint 12%float 10%float
  /\ valid_program (mkProgram 5 4 1 true "modern")
  /\ exists rooms,
       split_rooms 12%float 10%float (mkProgram 5 4 1 true "modern") = Ok rooms.
Proof.
  assert (Hf : valid_footprint 12%float 10%float) by (vm_compute; auto).
  assert (Hp : valid_program (mkProgram 5 4 1 true "modern"))
    by (unfold valid_program; simpl; lia).
  split; [exact Hf|]. split; [exact Hp|].
  exact (split_rooms_total 12%float 10%float _ Hf Hp).
Defined.

(** ** One ground floor *)

Section GroundFloor.

Context {F : Type} `{Number F}.

Lemma bedroom_row_on_ground program cell_w cell_d y0 :
  forall n rooms x0 placed,
    Forall on_ground rooms ->
    Forall on_ground
      (fst (bedroom_row program cell_w cell_d y0 n rooms x0 placed)).
Proof.
  induction n as [|n IH]; intros rooms x0 placed Hr; cbn [bedroom_row].
  - exact Hr.
  - destruct (bedrooms program <=? placed); [exact Hr|].
    apply IH. apply Forall_app. split; [exact Hr|].
    constructor; [reflexivity|constructor].
Qed.

Lemma bedroom_rows_on_ground program cell_w cell_d cols :
  forall n rooms placed y0,
    Forall on_ground rooms ->
    Forall on_ground
      (bedroom_rows program cell_w cell_d cols n rooms placed y0).
Proof.
  induction n as [|n IH]; intros rooms placed y0 Hr; cbn [bedroom_rows].
  - exact Hr.
  - pose proof (bedroom_row_on_ground program cell_w cell_d y0
                  (Z.to_nat cols) rooms wall placed Hr) as Hrow.
    destruct (bedroom_row program cell_w cell_d y0 (Z.to_nat cols) rooms wall placed)
      as [rooms' placed'].
    apply IH. exact Hrow.
Qed.

Lemma bathroom_loop_on_ground width front_depth cell_w cell_d :
  forall n i rooms rooms',
    Forall on_ground rooms ->
    bathroom_loop width front_depth cell_w cell_d n i rooms = Ok rooms' ->
    Forall on_ground rooms'.
Proof.
  induction n as [|n IH]; intros i rooms rooms' Hr; cbn [bathroom_loop].
  - intros Heq. inversion Heq; subst. exact Hr.
  - destruct (int_mul i _) as [off|e]; cbn [bind]; [|discriminate].
    apply IH. apply Forall_app. split; [exact Hr|].
    constructor; [reflexivity|constructor].
Qed.

Lemma split_rooms_on_ground width depth program rooms :
  split_rooms width depth program = Ok rooms -> Forall on_ground rooms.
Proof.
  unfold split_rooms.
  destruct (int_mul _ wall) as [ww|e]; cbn [bind]; [|discriminate].
  destruct (div_int _ _) as [cw|e]; cbn [bind]; [|discriminate].
  match goal with
  | |- bind ?c _ = _ -> _ => destruct c as [cd|e]; cbn [bind]; [|discriminate]
  end.
  match goal with
  | |- bind ?c _ = _ -> _ => destruct c as [rs|e] eqn:Hb; cbn [bind]; [|discriminate]
  end.
  intros Heq.
  assert (Hrs : Forall on_ground rs).
  { eapply bathroom_loop_on_ground; [|exact Hb].
    apply bedroom_rows_on_ground.
    destruct (open_plan program); repeat (constructor; try reflexivity). }
  destruct (office program =? 0); inversion Heq; subst; [exact Hrs|].
  apply Forall_app. split; [exact Hrs|].
  constructor; [reflexivity|constructor].
Qed.

End GroundFloor.

(** C9. [floors] has no effect: two requests that agree on prompt, width
    and depth get the same response whatever their [floors], and every
    room of a response has z = 0. *)
Theorem floors_has_no_effect :
  forall (F : Type) (N : Number F) (req1 req2 : PromptRequest.t F),
    PromptRequest.prompt req1 = PromptRequest.prompt req2 ->
    PromptRequest.width req1 = PromptRequest.width req2 ->
    PromptRequest.depth req1 = PromptRequest.depth req2 ->
    1 <= PromptRequest.floors req1 <= 3 ->
    1 <= PromptRequest.floors req2 <= 3 ->
    generate_layout req1 = generate_layout req2
    /\ forall response,
         generate_layout req1 = inr response ->
         Forall (fun r => Room.z r = zero) (GenerationResponse.rooms response).
Proof.
  intros F N req1 req2 Hp Hw Hd _ _. split.
  - unfold generate_layout. rewrite Hp, Hw, Hd. reflexivity.
  - intros response. unfold generate_layout.
    destruct (parse_program_from_prompt _) as [program|e]; cbn [bind]; [|discriminate].
    destruct (split_rooms _ _ program) as [rooms|e] eqn:Hs; cbn [bind]; [|discriminate].
    intros Heq. inversion Heq; subst. cbn [GenerationResponse.rooms].
    exact (split_rooms_on_ground _ _ _ _ Hs).
Qed.

Lemma floors_has_no_effect_witness :
  let req1 := PromptRequest.mk "3 bed, 2 bath, study" 12%float 10%float 1 in
  let req2 := PromptRequest.mk "3 bed, 2 bath, study" 12%float 10%float 3 in
  generate_layout req1 = generate_layout req2
  /\ forall response,
       generate_layout req1 = inr response ->
       Forall (fun r => Room.z r = zero) (GenerationResponse.rooms response).
Proof.
  intros req1 req2.
  apply (floors_has_no_effect float Binary64.number req1 req2);
    try reflexivity; simpl; lia.
Defined.

(** ** Geometry in exact arithmetic *)

Section ListFacts.

Context {A : Type}.






End ListFacts.

(** The loops read only [bedrooms] of the program. *)
Section ProgramFields.

Context {F : Type} `{Number F}.

Lemma bedroom_row_reads_bedrooms p p' cell_w cell_d y0 :
  bedrooms p = bedrooms p' ->
  forall n rooms x0 placed,
    bedroom_row p cell_w cell_d y0 n rooms x0 placed
    = bedroom_row p' cell_w cell_d y0 n rooms x0 placed.
Proof.
  intros Hb. induction n as [|n IH]; intros rooms x0 placed; cbn [bedroom_row].
  - reflexivity.
  - rewrite Hb. destruct (bedrooms p' <=? placed); [reflexivity|]. apply IH.
Qed.

Lemma bedroom_rows_reads_bedrooms p p' cell_w cell_d cols :
  bedrooms p = bedrooms p' ->
  forall n rooms placed y0,
    bedroom_rows p cell_w cell_d cols n rooms placed y0
    = bedroom_rows p' cell_w cell_d cols n rooms placed y0.
Proof.
  intros Hb. induction n as [|n IH]; intros rooms placed y0; cbn [bedroom_rows].
  - reflexivity.
  - rewrite (bedroom_row_reads_bedrooms p p' _ _ _ Hb).
    destruct (bedroom_row p' cell_w cell_d y0 (Z.to_nat cols) rooms wall placed).
    apply IH.
Qed.

Ltac same_binds :=
  repeat match goal with
         | |- bind ?c _ = bind ?c _ => destruct c; cbn [bind]; [|reflexivity]
         end.

(** [if program["office"]] only tests the flag against zero, and
    [style] is not read. *)
Lemma split_rooms_office_flag width depth b t o op st :
  o <> 0 ->
  split_rooms width depth (mkProgram b t o op st)
  = split_rooms width depth (mkProgram b t 1 op EmptyString).
Proof.
  intros Ho. unfold split_rooms.
  cbn [bedrooms bathrooms office open_plan].
  same_binds.
  rewrite (bedroom_rows_reads_bedrooms
             (mkProgram b t o op st) (mkProgram b t 1 op EmptyString))
    by reflexivity.
  same_binds.
  destruct o as [|q|q]; [congruence|reflexivity|reflexivity].
Qed.

Lemma split_rooms_no_office width depth b t op st :
  split_rooms width depth (mkProgram b t 0 op st)
  = split_rooms width depth (mkProgram b t 0 op EmptyString).
Proof.
  unfold split_rooms.
  cbn [bedrooms bathrooms office open_plan].
  same_binds.
  rewrite (bedroom_rows_reads_bedrooms
             (mkProgram b t 0 op st) (mkProgram b t 0 op EmptyString))
    by reflexivity.
  reflexivity.
Qed.

End ProgramFields.

Section ExactLayout.

Import ExactGeometry.
Local Open Scope Q_scope.















End ExactLayout.







(** In binary64 the smallest footprint, just above 4 by 4, still gives
    rooms of positive size for the largest program. *)
Example binary64_smallest_footprint :
  forall open : bool,
    let side := 0x1.0000000000001p+2%float in
    valid_footprint side side
    /\ exists rooms,
         split_rooms side side (mkProgram 6 4 1 open "modern") = Ok rooms
         /\ forallb positive_size rooms = true.
Proof.
  intros [|]; (split; [vm_compute; auto|]);
    eexists; (split; [vm_compute; reflexivity|]); vm_compute; reflexivity.
Qed.

(** ** The front zone and the footprint, in exact arithmetic *)

Section ExactFront.

Import ExactGeometry ExactBounds.
Local Open Scope Q_scope.










End ExactFront.




(** * Further properties of the extractor *)

Lemma lower_char_idempotent c : Py.lower_char (Py.lower_char c) = Py.lower_char c.
Proof. destruct c as [[] [] [] [] [] [] [] []]; reflexivity. Qed.

Lemma lower_idempotent s : Py.lower (Py.lower s) = Py.lower s.
Proof.
  induction s as [|c t IH]; cbn [Py.lower]; [reflexivity|].
  now rewrite lower_char_idempotent, IH.
Qed.


Lemma lower_char_digit c : Py.is_digit (Py.lower_char c) = Py.is_digit c.
Proof. destruct c as [[] [] [] [] [] [] [] []]; reflexivity. Qed.


Lemma lower_no_digit s : no_digit (Py.lower s) = no_digit s.
Proof.
  induction s as [|c t IH]; cbn [Py.lower no_digit]; [reflexivity|].
  now rewrite lower_char_digit, IH.
Qed.








Lemma digits_plus_no_digit s :
  starts_without_digit s = true -> Re.digits_plus s = [].
Proof.
  destruct s as [|c t]; cbn [Re.digits_plus starts_without_digit]; [reflexivity|].
  intros E. apply negb_true_iff in E. now rewrite E.
Qed.




Lemma match_here_no_digit keyword s :
  starts_without_digit s = true -> Re.match_here keyword s = None.
Proof.
  intros Hs. unfold Re.match_here. now rewrite (digits_plus_no_digit s Hs).
Qed.


Lemma search_no_digit keyword s : no_digit s = true -> Re.search keyword s = None.
Proof.
  induction s as [|c s IH]; cbn [no_digit]; [reflexivity|].
  intros E. apply andb_true_iff in E. destruct E as [Hc Hs].
  cbn [Re.search]. rewrite match_here_no_digit by exact Hc. auto.
Qed.





(** X1. The extractor ignores letter case: a prompt and its lower-case
    form give the same program. *)
Theorem extraction_ignores_case :
  forall prompt : string,
    parse_program_from_prompt (Py.lower prompt) = parse_program_from_prompt prompt.
Proof.
  intros prompt. unfold parse_program_from_prompt.
  now rewrite lower_idempotent.
Qed.






(** X5. A prompt without any digit gets the default counts, 3 bedrooms
    and 2 bathrooms (number words are not read). *)
Theorem no_number_gives_defaults :
  forall prompt : string,
    no_digit prompt = true ->
    exists p, parse_program_from_prompt prompt = Ok p
              /\ bedrooms p = 3 /\ bathrooms p = 2.
Proof.
  intros prompt Hp. unfold parse_program_from_prompt, find_num.
  rewrite !search_no_digit by (now rewrite lower_no_digit).
  cbn [bind]. eexists. split; [reflexivity|]. split; reflexivity.
Qed.

Lemma no_number_gives_defaults_witness :
  exists p, parse_program_from_prompt "three bed, two bath, open plan" = Ok p
            /\ bedrooms p = 3 /\ bathrooms p = 2.
Proof.
  apply no_number_gives_defaults. reflexivity.
Defined.

(** * Further properties of the partitioner and the handler *)

Lemma distinct_NoDup l : distinct l = true -> NoDup l.
Proof.
  induction l as [|a t IH]; cbn [distinct]; intros E; constructor.
  - apply andb_true_iff in E. destruct E as [Ha _].
    apply negb_true_iff in Ha. intros Hin.
    assert (existsb (String.eqb a) t = true); [|congruence].
    apply existsb_exists. exists a. split; [exact Hin|apply String.eqb_refl].
  - apply IH. apply andb_true_iff in E. tauto.
Qed.

Lemma names_cases (width depth : float) b t o (op : bool) :
  1 <= b <= 6 -> 1 <= t <= 4 -> o = 0 \/ o = 1 ->
  names_of (split_rooms width depth (mkProgram b t o op EmptyString))
  = Ok (room_names (mkProgram b t o op EmptyString))
  /\ distinct (room_names (mkProgram b t o op EmptyString)) = true.
Proof.
  intros Hb Ht Ho.
  assert (Hbs : b = 1 \/ b = 2 \/ b = 3 \/ b = 4 \/ b = 5 \/ b = 6) by lia.
  assert (Hts : t = 1 \/ t = 2 \/ t = 3 \/ t = 4) by lia.
  clear Hb Ht.
  destruct Hbs as [->|[->|[->|[->|[->| ->]]]]];
    destruct Hts as [->|[->|[->| ->]]];
    destruct Ho as [->| ->];
    destruct op;
    (split; vm_compute; reflexivity).
Qed.

Lemma room_names_office_flag b t o op st :
  room_names (mkProgram b t o op st)
  = room_names (mkProgram b t (if o =? 0 then 0 else 1) op EmptyString).
Proof.
  unfold room_names. cbn [bedrooms bathrooms office].
  now destruct o.
Qed.

(** X6. For every float width and depth and every program with 1..6
    bedrooms and 1..4 bathrooms, the rooms returned are named, in order,
    Living, Kitchen, Dining, Bedroom 1..k, Bath 1..bathrooms, then Office
    when the office flag is set, where k is the smaller of [bedrooms] and
    the grid size [max(1, bedrooms // 2) * cols]; the names are pairwise
    distinct. *)
Theorem rooms_are_named_in_order :
  forall (width depth : float) (program : HousingProgram),
    valid_program program ->
    names_of (split_rooms width depth program) = Ok (room_names program)
    /\ NoDup (room_names program).
Proof.
  intros width depth [b t o op st] [Hb Ht]. cbn [bedrooms bathrooms] in Hb, Ht.
  rewrite room_names_office_flag.
  destruct (Z.eq_dec o 0) as [->|Ho].
  - rewrite split_rooms_no_office. cbn [Z.eqb].
    destruct (names_cases width depth b t 0 op Hb Ht (or_introl eq_refl)) as [Hn Hd].
    split; [exact Hn | exact (distinct_NoDup _ Hd)].
  - rewrite (split_rooms_office_flag width depth b t o op st Ho).
    replace (o =? 0) with false by (symmetry; now apply Z.eqb_neq).
    destruct (names_cases width depth b t 1 op Hb Ht (or_intror eq_refl)) as [Hn Hd].
    split; [exact Hn | exact (distinct_NoDup _ Hd)].
Qed.

Lemma rooms_are_named_in_order_witness :
  names_of (split_rooms 12%float 10%float (mkProgram 5 2 1 false "classic"))
  = Ok (room_names (mkProgram 5 2 1 false "classic"))
  /\ NoDup (room_names (mkProgram 5 2 1 false "classic")).
Proof.
  apply rooms_are_named_in_order. unfold valid_program; simpl; lia.
Defined.

(** X7. Programs outside the extractor's range: with no bedroom and no
    bathroom requested (counts zero or negative) nothing is raised and
    only Living, Kitchen, Dining and the optional Office are returned. *)
Theorem nothing_requested_nothing_placed :
  forall (width depth : float) b t o (op : bool) st,
    b <= 0 -> t <= 0 ->
    names_of (split_rooms width depth (mkProgram b t o op st))
    = Ok (["Living"; "Kitchen"; "Dining"] ++ (if o =? 0 then [] else ["Office"]))%list.
Proof.
  intros width depth b t o op st Hb Ht.
  unfold split_rooms. cbv zeta. cbn [bedrooms bathrooms office open_plan].
  assert (Hrows : Z.max 1 (b / 2) = 1).
  { assert (b / 2 <= 0) by (apply Z.div_le_upper_bound; lia). lia. }
  assert (Hcols : (2 <=? b) = false) by (apply Z.leb_gt; lia).
  assert (Hbreak : (b <=? 0) = true) by (apply Z.leb_le; lia).
  assert (Hbaths : Z.to_nat t = 0%nat) by lia.
  rewrite Hrows, Hcols, Hbaths.
  change (Z.to_nat (if false then 2 else 1)) with 1%nat.
  change (Z.to_nat 1) with 1%nat.
  cbn [bedroom_rows bedroom_row bathroom_loop bedrooms].
  change (Z.to_nat 1) with 1%nat.
  cbn [bedroom_rows bedroom_row bathroom_loop bedrooms].
  rewrite Hbreak.
  destruct op, (o =? 0); vm_compute; reflexivity.
Qed.

Lemma nothing_requested_nothing_placed_witness :
  names_of (split_rooms 12%float 10%float (mkProgram 0 (-1) 1 true "modern"))
  = Ok (["Living"; "Kitchen"; "Dining"] ++ (if 1 =? 0 then [] else ["Office"]))%list.
Proof.
  apply nothing_requested_nothing_placed; lia.
Defined.

(** X8. [split_rooms] is not total outside the extractor's range: a
    bedroom count of 2^1025 or more makes [(rows + 1) * wall] raise
    OverflowError (int too large to convert to float). *)
Theorem huge_bedroom_count_overflows :
  forall (width depth : float) (program : HousingProgram),
    2 ^ 1025 <= bedrooms program ->
    split_rooms width depth program = Raise OverflowError.
Proof.
  intros width depth program Hb. unfold split_rooms.
  assert (Hcols : (2 <=? bedrooms program) = true) by (apply Z.leb_le; lia).
  rewrite Hcols.
  change (int_mul (2 + 1) wall) with (Ok (fmul (Binary64.of_Z 3) wall)).
  cbn [bind].
  match goal with
  | |- bind (div_int ?a 2) _ = _ =>
      change (div_int a 2) with (Ok (fdiv a (Binary64.of_Z 2)))
  end.
  cbn [bind].
  set (rows := Z.max 1 (bedrooms program / 2)).
  assert (Hrows : 2 ^ 1024 <= rows).
  { subst rows. assert (2 ^ 1024 <= bedrooms program / 2); [|lia].
    apply Z.div_le_lower_bound; [lia|].
    change (2 ^ 1025) with (2 * 2 ^ 1024) in Hb. exact Hb. }
  assert (Hpos : (0 <? rows) = true) by (apply Z.ltb_lt; lia).
  rewrite Hpos.
  assert (Hfit : Binary64.int_fits (rows + 1) = false).
  { unfold Binary64.int_fits. apply Z.ltb_ge.
    assert (0 < 2 ^ 970) by (apply Z.pow_pos_nonneg; lia). lia. }
  unfold int_mul at 1, float_of_int at 1.
  cbn [of_int Binary64.number]. rewrite Hfit. reflexivity.
Qed.

Lemma huge_bedroom_count_overflows_witness :
  split_rooms 12%float 10%float (mkProgram (2 ^ 1025) 2 0 false "neutral")
  = Raise OverflowError.
Proof.
  apply huge_bedroom_count_overflows. cbn [bedrooms]. lia.
Defined.

Section SameHeight.

Context {F : Type} `{Number F}.





End SameHeight.



Section ExactFootprint.

Import ExactGeometry ExactBounds ExactBaths.
Local Open Scope Q_scope.







End ExactFootprint.






